(** * The Node.js value bridge of realm-js: [src/node/node_value.hpp]

    A shallow embedding of the [node::Value] specialisations (classification,
    construction and extraction of V8 values) together with the part of the
    process memory that the binary conversions touch.

    [from_string] and [to_string] go through [node::String], which is
    declared elsewhere, and are left out.  The operations take the value a
    handle refers to: [value->...] on an empty handle has no meaning, and only
    [is_valid] and the results of the object conversions deal in handles that
    may be empty. *)

From Stdlib Require Import Floats.PrimFloat Strings.Byte.
From stdpp Require Import base option list strings.

(** ** Native memory

    Memory is a sequence of blocks, addressed by their index; a pointer is
    either null or a block with a byte offset.  A cell that was allocated and
    never written holds an indeterminate value ([None]); a block that was
    released is [None] as a whole. *)

Abbreviation Cell := (option byte).
Abbreviation Block := (list Cell).
Abbreviation Memory := (list (option Block)).

Inductive pointer : Type :=
| nullptr
| Ptr (b : nat) (ofs : nat).

Definition null_pointer (p : pointer) : bool :=
  match p with nullptr => true | Ptr _ _ => false end.

(** [p + k] on [char*]. *)
Definition ptr_add (p : pointer) (k : nat) : pointer :=
  match p with nullptr => nullptr | Ptr b o => Ptr b (o + k) end.

(** A new block with the given cells; its index is the old block count. *)
Definition alloc (cells : Block) (m : Memory) : pointer * Memory :=
  (Ptr (length m) 0, m ++ [Some cells]).

Definition free (p : pointer) (m : Memory) : Memory :=
  match p with nullptr => m | Ptr b _ => <[b := None]> m end.

(** Reading [n] cells through [p]: defined only inside a live block, and never
    through the null pointer, whatever [n] is. *)
Definition read_cells (m : Memory) (p : pointer) (n : nat) : option (list Cell) :=
  match p with
  | nullptr => None
  | Ptr b o =>
      match m !! b with
      | Some (Some blk) =>
          if decide (o + n <= length blk) then Some (take n (drop o blk)) else None
      | _ => None
      end
  end.

Definition write_cells (m : Memory) (p : pointer) (cs : list Cell) : option Memory :=
  match p with
  | nullptr => None
  | Ptr b o =>
      match m !! b with
      | Some (Some blk) =>
          if decide (o + length cs <= length blk)
          then Some (<[b := Some (take o blk ++ cs ++ drop (o + length cs) blk)]> m)
          else None
      | _ => None
      end
  end.

(** [memcpy(dst, src, n)]; [None] is undefined behaviour. *)
Definition memcpy (m : Memory) (dst src : pointer) (n : nat) : option Memory :=
  match read_cells m src n with
  | Some cs => write_cells m dst cs
  | None => None
  end.

Fixpoint determinate (cs : list Cell) : option (list byte) :=
  match cs with
  | [] => Some []
  | Some x :: cs' =>
      match determinate cs' with Some bs => Some (x :: bs) | None => None end
  | None :: _ => None
  end.

(** The byte sequence that a (pointer, length) view denotes.  A view of length
    zero denotes the empty sequence without its pointer being followed. *)
Definition view_bytes (m : Memory) (p : pointer) (n : nat) : option (list byte) :=
  match n with
  | 0 => Some []
  | S _ => match read_cells m p n with Some cs => determinate cs | None => None end
  end.

(** ** Engine values *)

Definition double : Type := float.

(** What V8 records about an object, as far as this file observes it. *)
Inductive ObjectClass : Type :=
| PlainObject
| ArrayObject
| DateObject
| FunctionObject
| WrapperObject
| ArrayBufferObject (backing_store : pointer) (byte_length : nat)
| ArrayBufferViewObject (backing_store : pointer) (byte_offset byte_length : nat)
                        (node_buffer : bool)
| BufferObject (data : pointer) (length : nat).

(** The referent of a non-empty [v8::Local<v8::Value>].  Objects carry their
    identity. *)
Inductive Value : Type :=
| Undefined
| Null
| Boolean (b : bool)
| Number (d : double)
| String (s : string)
| Symbol (id : nat)
| Object (id : nat) (cls : ObjectClass).

(** [v8::Local<T>]: empty, or referring to a value. *)
Definition Local : Type := option Value.

(** [v8::Isolate*]: an opaque engine instance. *)
Record Isolate : Type := { isolate_id : nat }.

(** The mutable world: process memory and the engine's object counter. *)
Record State : Type := {
  memory : Memory;
  next_object : nat
}.

(** ** The embedding API this file calls (V8, Nan, node::Buffer) *)

Definition FromMaybe {A : Type} (default : A) (m : option A) : A :=
  match m with Some a => a | None => default end.

Definition object_class (v : Value) : option ObjectClass :=
  match v with Object _ c => Some c | _ => None end.

Definition IsArray (v : Value) : bool :=
  match object_class v with Some ArrayObject => true | _ => false end.
Definition IsArrayBuffer (v : Value) : bool :=
  match object_class v with Some (ArrayBufferObject _ _) => true | _ => false end.
Definition IsArrayBufferView (v : Value) : bool :=
  match object_class v with Some (ArrayBufferViewObject _ _ _ _) => true | _ => false end.
Definition IsDate (v : Value) : bool :=
  match object_class v with Some DateObject => true | _ => false end.
Definition IsBoolean (v : Value) : bool :=
  match v with Boolean _ => true | _ => false end.
Definition IsFunction (v : Value) : bool :=
  match object_class v with Some FunctionObject => true | _ => false end.
Definition IsNull (v : Value) : bool :=
  match v with Null => true | _ => false end.
Definition IsNumber (v : Value) : bool :=
  match v with Number _ => true | _ => false end.
Definition IsObject (v : Value) : bool :=
  match v with Object _ _ => true | _ => false end.
Definition IsString (v : Value) : bool :=
  match v with String _ => true | _ => false end.
Definition IsUndefined (v : Value) : bool :=
  match v with Undefined => true | _ => false end.
Definition IsEmpty (h : Local) : bool :=
  match h with None => true | Some _ => false end.

(** [node::Buffer::HasInstance]: a legacy Buffer object, or a byte view that
    node created as a Buffer. *)
Definition Buffer_HasInstance (v : Value) : bool :=
  match object_class v with
  | Some (BufferObject _ _) => true
  | Some (ArrayBufferViewObject _ _ _ nb) => nb
  | _ => false
  end.

(** ** Classification: lines 26-95 *)

Definition is_array (isolate : Isolate) (value : Value) : bool := IsArray value.
Definition is_array_buffer (isolate : Isolate) (value : Value) : bool := IsArrayBuffer value.
Definition is_array_buffer_view (isolate : Isolate) (value : Value) : bool :=
  IsArrayBufferView value.
Definition is_date (isolate : Isolate) (value : Value) : bool := IsDate value.
Definition is_boolean (isolate : Isolate) (value : Value) : bool := IsBoolean value.
Definition is_constructor (isolate : Isolate) (value : Value) : bool := IsFunction value.
Definition is_function (isolate : Isolate) (value : Value) : bool := IsFunction value.
Definition is_null (isolate : Isolate) (value : Value) : bool := IsNull value.
Definition is_number (isolate : Isolate) (value : Value) : bool := IsNumber value.
Definition is_object (isolate : Isolate) (value : Value) : bool := IsObject value.
Definition is_string (isolate : Isolate) (value : Value) : bool := IsString value.
Definition is_undefined (isolate : Isolate) (value : Value) : bool := IsUndefined value.

Definition is_binary (isolate : Isolate) (value : Value) : bool :=
  is_array_buffer isolate value || is_array_buffer_view isolate value
  || Buffer_HasInstance value.

Definition is_valid (value : Local) : bool := negb (IsEmpty value).

(** ** Outcomes of a call

    A call returns, throws a C++ exception, stops at a failed
    [REALM_ASSERT], or has undefined behaviour. *)

Inductive exception : Type :=
| invalid_argument (what : string)
| runtime_error (what : string).

Inductive Result (A : Type) : Type :=
| Returns (a : A) (st : State)
| Throws (e : exception) (st : State)
| Aborts
| UndefinedBehaviour.

Arguments Returns {A} a st.
Arguments Throws {A} e st.
Arguments Aborts {A}.
Arguments UndefinedBehaviour {A}.

Definition M (A : Type) : Type := State -> Result A.

Definition ret {A : Type} (a : A) : M A := fun st => Returns a st.

Definition bind {A B : Type} (c : M A) (k : A -> M B) : M B :=
  fun st =>
    match c st with
    | Returns a st' => k a st'
    | Throws e st' => Throws e st'
    | Aborts => Aborts
    | UndefinedBehaviour => UndefinedBehaviour
    end.

Definition throw {A : Type} (e : exception) : M A := fun st => Throws e st.

Notation "'do' x <- c ; k" := (bind c (fun x => k))
  (at level 10, x name, c at level 100, k at level 200).

(** An engine call that changes the state and cannot fail on the C++ side. *)
Definition engine {A : Type} (f : State -> A * State) : M A :=
  fun st => let (a, st') := f st in Returns a st'.

(** A partial operation whose undefined cases are undefined behaviour. *)
Definition defined {A : Type} (o : option A) : M A :=
  fun st => match o with Some a => Returns a st | None => UndefinedBehaviour end.

(** [REALM_ASSERT(cond)].  The macro is defined by the database core and is
    not in this file, and the spec does not speak of it.  All that is taken
    from its name is that a call does not go on past a check that fails: the
    outcome [Aborts] stands for "a [REALM_ASSERT] failed", and nothing is said
    of what the macro does then. *)
Definition REALM_ASSERT (cond : bool) : M unit :=
  fun st => if cond then Returns tt st else Aborts.

Definition set_memory (st : State) (m : Memory) : State :=
  {| memory := m; next_object := next_object st |}.

Definition new_object (st : State) : nat * State :=
  (next_object st, {| memory := memory st; next_object := S (next_object st) |}).

(** [new char[n]]: a fresh block of [n] indeterminate cells; never null. *)
Definition new_char_array (n : nat) : M pointer :=
  fun st => let (p, m) := alloc (replicate n None) (memory st) in Returns p (set_memory st m).

(** A local [char] variable comes to life, and dies when its scope ends. *)
Definition enter_local_char : M pointer :=
  fun st => let (p, m) := alloc [None] (memory st) in Returns p (set_memory st m).

Definition leave_local_char (p : pointer) : M unit :=
  fun st => Returns tt (set_memory st (free p (memory st))).

Definition do_memcpy (dst src : pointer) (n : nat) : M unit :=
  fun st =>
    match memcpy (memory st) dst src n with
    | Some m => Returns tt (set_memory st m)
    | None => UndefinedBehaviour
    end.

(** ** The engine

    What the JavaScript engine decides and this file cannot see. *)

Record Engine : Type := {
  (** [v8::Value::BooleanValue(context)], a [Maybe<bool>]. *)
  BooleanValue : Value -> option bool;
  (** The numeric value of a string (ECMAScript StringToNumber). *)
  StringToNumber : string -> double;
  (** The numeric value of an object: runs its [valueOf]/[toString], which
      may change the state and may throw in script ([None]). *)
  ObjectToNumber : nat -> ObjectClass -> State -> option double * State;
  (** Whether an ArrayBuffer of length zero has a null backing store. *)
  empty_store_is_null : bool
}.

(** [Nan::To<double>]: [v8::Value::NumberValue], ECMAScript ToNumber. *)
Definition Nan_To_double (E : Engine) (v : Value) (st : State) : option double * State :=
  match v with
  | Undefined => (Some nan, st)
  | Null => (Some zero, st)
  | Boolean b => (Some (if b then one else zero), st)
  | Number d => (Some d, st)
  | String s => (Some (StringToNumber E s), st)
  | Symbol _ => (None, st)
  | Object id c => ObjectToNumber E id c st
  end.

(** [Nan::To<bool>]. *)
Definition Nan_To_bool (E : Engine) (v : Value) : option bool := BooleanValue E v.

(** [Nan::To<v8::Object>]: [v8::Value::ToObject], ECMAScript ToObject.  An
    object is returned as it is, a primitive gets a new wrapper, and there is
    none for undefined and null. *)
Definition Nan_To_Object (v : Value) (st : State) : Local * State :=
  match v with
  | Undefined | Null => (None, st)
  | Object _ _ => (Some v, st)
  | _ => let (id, st') := new_object st in (Some (Object id WrapperObject), st')
  end.

(** [MaybeLocal<T>::FromMaybe]. *)
Definition MaybeLocal_FromMaybe (default : Local) (m : Local) : Local :=
  match m with Some v => Some v | None => default end.

(** [Nan::New(bool)], [Nan::New(double)], [Nan::Null()], [Nan::Undefined()]. *)
Definition Nan_New_bool (b : bool) : Value := Boolean b.
Definition Nan_New_double (d : double) : Value := Number d.
Definition Nan_Null : Value := Null.
Definition Nan_Undefined : Value := Undefined.

(** [v8::ArrayBuffer::New(isolate, byte_length)]: a new ArrayBuffer object
    over a new zero-filled backing store. *)
Definition ArrayBuffer_New (E : Engine) (isolate : Isolate) (byte_length : nat) : M Value :=
  fun st =>
    let (id, st1) := new_object st in
    if (byte_length =? 0) && empty_store_is_null E
    then Returns (Object id (ArrayBufferObject nullptr 0)) st1
    else
      let (p, m) := alloc (replicate byte_length (Some x00)) (memory st1) in
      Returns (Object id (ArrayBufferObject p byte_length)) (set_memory st1 m).

(** [v8::ArrayBuffer::Contents]. *)
Record Contents : Type := { Data : pointer; ByteLength : nat }.

(** [value.As<v8::ArrayBuffer>()->GetContents()]; the cast is unchecked. *)
Definition GetContents (array_buffer : Value) : option Contents :=
  match object_class array_buffer with
  | Some (ArrayBufferObject p n) => Some {| Data := p; ByteLength := n |}
  | _ => None
  end.

(** [v8::ArrayBufferView::ByteLength]. *)
Definition View_ByteLength (view : Value) : option nat :=
  match object_class view with
  | Some (ArrayBufferViewObject _ _ n _) => Some n
  | _ => None
  end.

(** [v8::ArrayBufferView::CopyContents(dest, byte_length)]: writes at most
    min(byte_length, ByteLength) bytes, starting at the view's offset in its
    buffer, to [dest], and returns how many were written. *)
Definition CopyContents (view : Value) (dest : pointer) (byte_length : nat) : M nat :=
  match object_class view with
  | Some (ArrayBufferViewObject store ofs len _) =>
      let bytes_to_copy := Nat.min byte_length len in
      if bytes_to_copy =? 0 then ret 0
      else do _ <- do_memcpy dest (ptr_add store ofs) bytes_to_copy; ret bytes_to_copy
  | _ => fun _ => UndefinedBehaviour
  end.

(** [node::Buffer::Data] and [node::Buffer::Length]. *)
Definition Buffer_Data (v : Value) : option pointer :=
  match object_class v with
  | Some (BufferObject p _) => Some p
  | Some (ArrayBufferViewObject store ofs _ true) => Some (ptr_add store ofs)
  | _ => None
  end.

Definition Buffer_Length (v : Value) : option nat :=
  match object_class v with
  | Some (BufferObject _ n) => Some n
  | Some (ArrayBufferViewObject _ _ n true) => Some n
  | _ => None
  end.

(** ** Binary data of the database core *)

(** [realm::BinaryData]: a pointer and a size, owning nothing. *)
Record BinaryData : Type := { BinaryData_data : pointer; BinaryData_size : nat }.

(** [realm::OwnedBinaryData], as [data()] and [size()] show it. *)
Record OwnedBinaryData : Type := { m_data : pointer; m_size : nat }.

(** Modelled from the spec: the constructor [OwnedBinaryData(const char*,
    size_t)] belongs to the database core and is not in this file.  In the
    spec's data model an owned binary blob is "a bridge-allocated buffer
    holding a duplicate of the source bytes, valid independent of the source's
    lifetime": the constructor allocates an array of [length] chars and
    copies the [length] bytes at [data] into it; for length zero there is
    nothing to read.  The file itself needs no less of it: the lambda hands
    it the address of a local that dies when the lambda returns (line 159),
    and the object keeps its bytes in a [std::unique_ptr<char[]>] (line 173).
    For a null pointer the object made is the null one, which is what the
    lambda is there to avoid (line 155). *)
Definition OwnedBinaryData_of_pointer (data : pointer) (length : nat) : M OwnedBinaryData :=
  if null_pointer data then ret {| m_data := nullptr; m_size := length |}
  else
    do array <- new_char_array length;
    do _ <- (if length =? 0 then ret tt else do_memcpy array data length);
    ret {| m_data := array; m_size := length |}.

(** Modelled from the spec: [OwnedData] and its constructor from a
    [std::unique_ptr<char[]>] are not in this file.  In the spec the view
    path "allocates a new buffer sized to the view's logical byte length and
    copies the view's logical contents into it" and the result is that owned
    copy: the object made owns the array it is given, and the
    [OwnedBinaryData] that line 175 returns is taken to be this object.  A
    further copy that the return statement makes of the local, and the
    release of the local, are not modelled: they change in which block the
    bytes live, not the bytes nor the length. *)
Definition OwnedData_of_unique_ptr (data : pointer) (size : nat) : OwnedBinaryData :=
  {| m_data := data; m_size := size |}.

(** The bytes of a result, in the state it was returned in. *)
Definition OwnedBinaryData_bytes (st : State) (r : OwnedBinaryData) : option (list byte) :=
  view_bytes (memory st) (m_data r) (m_size r).

Definition BinaryData_bytes (st : State) (d : BinaryData) : option (list byte) :=
  view_bytes (memory st) (BinaryData_data d) (BinaryData_size d).

(** ** Construction: lines 97-132 *)

Definition from_boolean (isolate : Isolate) (boolean : bool) : Value := Nan_New_bool boolean.
Definition from_null (isolate : Isolate) : Value := Nan_Null.
Definition from_number (isolate : Isolate) (number : double) : Value := Nan_New_double number.
Definition from_undefined (isolate : Isolate) : Value := Nan_Undefined.

Definition from_binary (E : Engine) (isolate : Isolate) (data : BinaryData) : M Value :=
  do buffer <- ArrayBuffer_New E isolate (BinaryData_size data);
  do contents <- defined (GetContents buffer);
  do _ <- (if negb (BinaryData_size data =? 0)
           then do_memcpy (Data contents) (BinaryData_data data) (BinaryData_size data)
           else ret tt);
  ret buffer.

(** ** Extraction: lines 134-208 *)

Definition to_boolean (E : Engine) (isolate : Isolate) (value : Value) : M bool :=
  ret (FromMaybe false (Nan_To_bool E value)).

Definition to_number (E : Engine) (isolate : Isolate) (value : Value) : M double :=
  do coerced <- engine (Nan_To_double E value);
  let number := FromMaybe nan coerced in
  if is_nan number
  then throw (invalid_argument "Value not convertible to a number.")
  else ret number.

(** The local [number] of [to_number] (line 141): the coercion's result, with
    NaN standing in when the engine gives none. *)
Definition coerced_number (E : Engine) (value : Value) (st : State) : double :=
  FromMaybe nan (fst (Nan_To_double E value st)).

Definition not_a_number_message : string := "Value not convertible to a number.".

Definition not_binary_message : string :=
  "Can only convert Buffer, ArrayBuffer, and ArrayBufferView objects to binary".

(** The lambda of [to_binary]. *)
Definition make_owned_binary_data (data : pointer) (length : nat) : M OwnedBinaryData :=
  do _ <- REALM_ASSERT (negb (null_pointer data) || (length =? 0));
  do placeholder <- enter_local_char;
  do result <-
    OwnedBinaryData_of_pointer (if negb (null_pointer data) then data else placeholder) length;
  do _ <- leave_local_char placeholder;
  ret result.

Definition to_binary (isolate : Isolate) (value : Value) : M OwnedBinaryData :=
  if is_array_buffer isolate value then
    do contents <- defined (GetContents value);
    make_owned_binary_data (Data contents) (ByteLength contents)
  else if is_array_buffer_view isolate value then
    do byte_length <- defined (View_ByteLength value);
    do data <- new_char_array byte_length;
    do bytes <- CopyContents value data byte_length;
    let owned_data := OwnedData_of_unique_ptr data bytes in
    ret owned_data
  else if Buffer_HasInstance value then
    do data <- defined (Buffer_Data value);
    do length <- defined (Buffer_Length value);
    make_owned_binary_data data length
  else
    throw (runtime_error
             "Can only convert Buffer, ArrayBuffer, and ArrayBufferView objects to binary").

Definition to_object (isolate : Isolate) (value : Value) : M Local :=
  do converted <- engine (Nan_To_Object value);
  ret (MaybeLocal_FromMaybe None converted).

Definition to_array (isolate : Isolate) (value : Value) : M Local :=
  to_object isolate value.

Definition to_date (isolate : Isolate) (value : Value) : M Local :=
  to_object isolate value.

Definition to_function (isolate : Isolate) (value : Value) : M Local :=
  ret (if IsFunction value then Some value else None).

Definition to_constructor (isolate : Isolate) (value : Value) : M Local :=
  to_function isolate value.

(** The memory after the lambda of [to_binary] has run and made an object
    holding the cells [cs]: its local came to life in a new block, the
    object's array in the block after that, and the local is dead again. *)
Definition after_lambda (m : Memory) (cs : Block) : Memory :=
  free (Ptr (length m) 0) ((m ++ [Some [None]]) ++ [Some cs]).

(** What the lambda returns from memory [m] for length [n]: an object over the
    second block after those of [m]. *)
Definition lambda_result (m : Memory) (n : nat) : OwnedBinaryData :=
  {| m_data := Ptr (S (length m)) 0; m_size := n |}.

(** The cells that a copy of [n] bytes reads through [p]: none for length
    zero. *)
Definition copied_cells (m : Memory) (p : pointer) (n : nat) : option (list Cell) :=
  match n with 0 => Some [] | S _ => read_cells m p n end.

(** ** Sample inputs *)

(** ECMAScript ToBoolean. *)
Definition ToBoolean (v : Value) : bool :=
  match v with
  | Undefined | Null => false
  | Boolean b => b
  | Number d => negb (is_zero d || is_nan d)
  | String s => negb (String.eqb s "")
  | Symbol _ | Object _ _ => true
  end.

(** An engine in which empty ArrayBuffers have a null backing store, strings
    are never numbers and objects have no numeric value. *)
Definition sample_engine : Engine := {|
  BooleanValue := fun v => Some (ToBoolean v);
  StringToNumber := fun _ => nan;
  ObjectToNumber := fun _ _ st => (Some nan, st);
  empty_store_is_null := true
|}.

Definition sample_isolate : Isolate := {| isolate_id := 0 |}.

(** One live block holding the bytes 9, 1, 2, 3, 9; one object exists. *)
Definition sample_state : State := {|
  memory := [Some [Some x09; Some x01; Some x02; Some x03; Some x09]];
  next_object := 1
|}.

(** A typed array over that block: three bytes from offset 1. *)
Definition sample_view : Value :=
  Object 0 (ArrayBufferViewObject (Ptr 0 0) 1 3 false).

(** A view of the three bytes 1, 2, 3 of the sample block. *)
Definition sample_data : BinaryData :=
  {| BinaryData_data := Ptr 0 1; BinaryData_size := 3 |}.

(** The sample state with one more block, holding 1, 2, 3. *)
Definition sample_state_with_copy : State :=
  set_memory sample_state (memory sample_state ++ [Some [Some x01; Some x02; Some x03]]).

(** The sample state after [from_binary] on [sample_data]. *)
Definition sample_state_after_from_binary : State :=
  {| memory := memory sample_state ++ [Some [Some x01; Some x02; Some x03]];
     next_object := 2 |}.

(** * Properties *)

(** C7: [is_binary] holds exactly when one of [is_array_buffer],
    [is_array_buffer_view] and the node Buffer check holds. *)
Theorem is_binary_iff_some_representation (isolate : Isolate) (value : Value) :
  is_binary isolate value = true <->
  is_array_buffer isolate value = true
  \/ is_array_buffer_view isolate value = true
  \/ Buffer_HasInstance value = true.
Proof.
  unfold is_binary.
  rewrite !orb_true_iff. tauto.
Qed.

(** ** Memory lemmas *)

Lemma determinate_Some (bs : list byte) : determinate (Some <$> bs) = Some bs.
Proof.
  induction bs as [|x bs IH]; [reflexivity|].
  rewrite fmap_cons. cbn [determinate]. rewrite IH. reflexivity.
Qed.

Lemma read_cells_length (m : Memory) (p : pointer) (n : nat) (cs : list Cell) :
  read_cells m p n = Some cs -> length cs = n.
Proof.
  destruct p as [|b o]; unfold read_cells; [discriminate|].
  destruct (m !! b) as [[blk|]|]; try discriminate.
  destruct (decide (o + n <= length blk)) as [Hle|]; [|discriminate].
  intros [= <-]. rewrite length_take, length_drop. lia.
Qed.

(** Allocation leaves every live view as it was. *)
Lemma read_cells_alloc (m : Memory) (blk : Block) (p : pointer) (n : nat) (cs : list Cell) :
  read_cells m p n = Some cs ->
  read_cells (m ++ [Some blk]) p n = Some cs.
Proof.
  destruct p as [|b o]; unfold read_cells; [discriminate|].
  destruct (m !! b) as [[old|]|] eqn:Hb; try discriminate.
  rewrite lookup_app_l by (eapply lookup_lt_Some; exact Hb).
  rewrite Hb. tauto.
Qed.

Lemma read_cells_new_block (m : Memory) (blk : Block) :
  read_cells (m ++ [Some blk]) (Ptr (length m) 0) (length blk) = Some blk.
Proof.
  unfold read_cells. rewrite lookup_app_r by lia. rewrite Nat.sub_diag.
  cbn [lookup list_lookup]. rewrite decide_True by lia.
  rewrite drop_0, firstn_all. reflexivity.
Qed.

(** Overwriting a whole new block. *)
Lemma write_cells_new_block (m : Memory) (blk : Block) (cs : list Cell) :
  length cs = length blk ->
  write_cells (m ++ [Some blk]) (Ptr (length m) 0) cs = Some (m ++ [Some cs]).
Proof.
  intros Hlen. unfold write_cells. rewrite lookup_app_r by lia. rewrite Nat.sub_diag.
  cbn [lookup list_lookup]. rewrite decide_True by lia. f_equal.
  rewrite insert_app_r_alt by lia. rewrite Nat.sub_diag.
  cbn [insert list_insert take Nat.add app].
  rewrite Hlen, drop_all, app_nil_r. reflexivity.
Qed.

(** A write into one block is not seen through a pointer into another. *)
Lemma read_cells_write_other (m m' : Memory) (b o b' o' n : nat) (cs : list Cell) :
  b <> b' ->
  write_cells m (Ptr b o) cs = Some m' ->
  read_cells m' (Ptr b' o') n = read_cells m (Ptr b' o') n.
Proof.
  intros Hne. unfold write_cells, read_cells.
  destruct (m !! b) as [[blk|]|]; try discriminate.
  destruct (decide (o + length cs <= length blk)); [|discriminate].
  intros [= <-]. rewrite list_lookup_insert_ne by exact Hne. reflexivity.
Qed.

Lemma read_cells_free_other (m : Memory) (b o b' o' n : nat) :
  b <> b' ->
  read_cells (free (Ptr b o) m) (Ptr b' o') n = read_cells m (Ptr b' o') n.
Proof.
  intros Hne. unfold free, read_cells.
  rewrite list_lookup_insert_ne by exact Hne. reflexivity.
Qed.

(** A defined read goes through a block that exists. *)
Lemma read_cells_block_bound (m : Memory) (b o n : nat) (cs : list Cell) :
  read_cells m (Ptr b o) n = Some cs -> b < length m.
Proof.
  unfold read_cells. destruct (m !! b) as [x|] eqn:Hb; [|discriminate].
  intros _. apply lookup_lt_Some in Hb. exact Hb.
Qed.

Lemma read_cells_app (m ext : Memory) (p : pointer) (n : nat) (cs : list Cell) :
  read_cells m p n = Some cs -> read_cells (m ++ ext) p n = Some cs.
Proof.
  destruct p as [|b o]; unfold read_cells; [discriminate|].
  destruct (m !! b) as [[old|]|] eqn:Hb; try discriminate.
  rewrite lookup_app_l by (eapply lookup_lt_Some; exact Hb).
  rewrite Hb. tauto.
Qed.

Lemma memcpy_into_new_block (m : Memory) (blk : Block) (src : pointer) (n : nat)
      (m' : Memory) :
  length blk = n ->
  memcpy (m ++ [Some blk]) (Ptr (length m) 0) src n = Some m' ->
  exists cs, m' = m ++ [Some cs] /\ length cs = n.
Proof.
  intros Hblk. unfold memcpy.
  destruct (read_cells (m ++ [Some blk]) src n) as [cs|] eqn:Hread; [|discriminate].
  assert (Hcs := read_cells_length _ _ _ _ Hread).
  rewrite write_cells_new_block by congruence.
  intros [= <-]. exists cs. split; [reflexivity|exact Hcs].
Qed.

(** ** Outcomes of the parts of [to_binary] *)

(** The lambda on a pointer through which the bytes to copy can be read. *)
Lemma make_owned_binary_data_copies (p : pointer) (n : nat) (st : State) (cs : list Cell) :
  (p = nullptr -> n = 0) ->
  copied_cells (memory st) p n = Some cs ->
  make_owned_binary_data p n st
  = Returns (lambda_result (memory st) n) (set_memory st (after_lambda (memory st) cs)).
Proof.
  intros Hnull Hcs.
  assert (Hptr : forall q cs', q <> nullptr ->
            copied_cells (memory st ++ [Some [None]]) q n = Some cs' ->
            (do r <- OwnedBinaryData_of_pointer q n;
             do _ <- leave_local_char (Ptr (length (memory st)) 0);
             ret r) (set_memory st (memory st ++ [Some [None]]))
            = Returns (lambda_result (memory st) n)
                      (set_memory st (after_lambda (memory st) cs'))).
  { intros [|b o] cs' Hq Hread; [contradiction|].
    unfold OwnedBinaryData_of_pointer, bind, new_char_array, alloc, leave_local_char,
      lambda_result, after_lambda, ret.
    cbn [null_pointer memory set_memory next_object].
    rewrite length_app. cbn [length]. rewrite Nat.add_1_r.
    destruct n as [|k]; cbn [copied_cells] in Hread.
    - injection Hread as <-. reflexivity.
    - cbn [Nat.eqb]. unfold do_memcpy, memcpy. cbn [memory set_memory].
      rewrite (read_cells_app _ [Some (replicate (S k) None)] _ _ _ Hread).
      replace (S (length (memory st))) with (length (memory st ++ [Some [None]]))
        by (rewrite length_app; cbn [length]; lia).
      rewrite write_cells_new_block
        by (rewrite length_replicate; exact (read_cells_length _ _ _ _ Hread)).
      reflexivity. }
  unfold make_owned_binary_data, bind at 1, REALM_ASSERT.
  destruct p as [|b o].
  - rewrite (Hnull eq_refl) in *. cbn [null_pointer negb orb Nat.eqb].
    unfold bind at 1, enter_local_char, alloc.
    cbn [negb]. cbn in Hcs. injection Hcs as <-.
    apply Hptr; [discriminate|reflexivity].
  - cbn [null_pointer negb orb]. unfold bind at 1, enter_local_char, alloc.
    apply Hptr; [discriminate|].
    destruct n as [|k]; cbn [copied_cells] in *; [exact Hcs|].
    apply read_cells_app. exact Hcs.
Qed.

Lemma make_owned_binary_data_outcome (data : pointer) (length : nat) (st : State) :
  make_owned_binary_data data length st = Aborts
  \/ make_owned_binary_data data length st = UndefinedBehaviour
  \/ exists cs, make_owned_binary_data data length st
                = Returns (lambda_result (memory st) length)
                          (set_memory st (after_lambda (memory st) cs))
                /\ List.length cs = length.
Proof.
  destruct data as [|b o].
  - destruct length as [|k]; [|left; reflexivity].
    right. right. exists []. split; [|reflexivity].
    apply make_owned_binary_data_copies; [reflexivity|reflexivity].
  - destruct length as [|k].
    + right. right. exists []. split; [|reflexivity].
      apply make_owned_binary_data_copies; [discriminate|reflexivity].
    + destruct (read_cells (memory st) (Ptr b o) (S k)) as [cs|] eqn:Hread.
      * right. right. exists cs. split; [|exact (read_cells_length _ _ _ _ Hread)].
        apply make_owned_binary_data_copies; [discriminate|exact Hread].
      * unfold make_owned_binary_data, bind, REALM_ASSERT, enter_local_char, alloc,
          OwnedBinaryData_of_pointer, new_char_array, leave_local_char, ret.
        cbn [null_pointer negb orb Nat.eqb memory set_memory].
        unfold bind, alloc, do_memcpy. cbn [memory set_memory].
        destruct (memcpy _ _ _ _) as [m'|] eqn:Hcopy; [|right; left; reflexivity].
        right. right.
        apply memcpy_into_new_block in Hcopy as (cs & -> & Hcs);
          [|apply length_replicate].
        exists cs. split; [|exact Hcs].
        unfold lambda_result, after_lambda. rewrite length_app. cbn [List.length].
        rewrite Nat.add_1_r. reflexivity.
Qed.

Lemma view_extraction_outcome (isolate : Isolate) (store : pointer) (ofs len : nat)
      (nb : bool) (id : nat) (st : State) :
  let value := Object id (ArrayBufferViewObject store ofs len nb) in
  to_binary isolate value st = UndefinedBehaviour
  \/ exists st', to_binary isolate value st
                 = Returns {| m_data := Ptr (List.length (memory st)) 0; m_size := len |} st'.
Proof.
  cbn [to_binary is_array_buffer is_array_buffer_view IsArrayBuffer IsArrayBufferView
       object_class View_ByteLength].
  unfold bind, defined, new_char_array, alloc, CopyContents. cbn [object_class].
  rewrite Nat.min_id.
  destruct (len =? 0) eqn:Hlen.
  - right. apply Nat.eqb_eq in Hlen. subst len. eexists. reflexivity.
  - unfold bind, do_memcpy. cbn [memory set_memory].
    destruct (memcpy _ _ _ _); [right|left; reflexivity].
    eexists. reflexivity.
Qed.

Lemma to_binary_array_buffer (isolate : Isolate) (id : nat) (p : pointer) (n : nat) :
  to_binary isolate (Object id (ArrayBufferObject p n)) = make_owned_binary_data p n.
Proof. reflexivity. Qed.

Lemma to_binary_buffer (isolate : Isolate) (id : nat) (p : pointer) (n : nat) :
  to_binary isolate (Object id (BufferObject p n)) = make_owned_binary_data p n.
Proof. reflexivity. Qed.

(** The lambda stops at its assertion, is undefined or returns: settle a goal
    about a call of it, given as hypothesis [H], in the first two cases, and
    leave the third, with the cells [cs] that were copied. *)
Ltac lambda_cases p n st H cs Hcs :=
  let Ho := fresh "Ho" in
  destruct (make_owned_binary_data_outcome p n st) as [Ho|[Ho|(cs & Ho & Hcs)]];
  rewrite Ho in H; [discriminate H|discriminate H|].

Lemma to_binary_not_binary (isolate : Isolate) (value : Value) (st : State) :
  is_binary isolate value = false ->
  to_binary isolate value st = Throws (runtime_error not_binary_message) st.
Proof.
  unfold is_binary, to_binary. intros H.
  apply orb_false_iff in H as [H HB]. apply orb_false_iff in H as [HA HV].
  rewrite HA, HV, HB. reflexivity.
Qed.

Lemma to_binary_binary_no_throw (isolate : Isolate) (value : Value) (st : State) :
  is_binary isolate value = true ->
  forall e st', to_binary isolate value st <> Throws e st'.
Proof.
  intros H e st' Hthrow.
  destruct value as [| | | | | |id cls]; try discriminate H.
  destruct cls as [| | | | |p n|store ofs len nb|p n]; try discriminate H.
  - rewrite to_binary_array_buffer in Hthrow.
    lambda_cases p n st Hthrow cs Hcs. discriminate Hthrow.
  - destruct (view_extraction_outcome isolate store ofs len nb id st) as [Ho|(st1 & Ho)];
      cbn zeta in Ho; rewrite Ho in Hthrow; discriminate.
  - rewrite to_binary_buffer in Hthrow.
    lambda_cases p n st Hthrow cs Hcs. discriminate Hthrow.
Qed.

(** C1: [to_binary] throws exactly when [is_binary] is false, that is, when
    the value is none of ArrayBuffer, ArrayBufferView and node Buffer; what it
    throws is then the [std::runtime_error] of line 181, with the state
    untouched. *)
Theorem to_binary_throws_iff_not_binary (isolate : Isolate) (value : Value) (st : State) :
  (is_binary isolate value = false <->
   exists e st', to_binary isolate value st = Throws e st')
  /\ (is_array_buffer isolate value = false
      /\ is_array_buffer_view isolate value = false
      /\ Buffer_HasInstance value = false <->
      to_binary isolate value st = Throws (runtime_error not_binary_message) st).
Proof.
  assert (Hfwd := to_binary_not_binary isolate value st).
  assert (Hbwd := to_binary_binary_no_throw isolate value st).
  assert (Hsplit : is_binary isolate value = false <->
                   is_array_buffer isolate value = false
                   /\ is_array_buffer_view isolate value = false
                   /\ Buffer_HasInstance value = false).
  { unfold is_binary. rewrite !orb_false_iff. tauto. }
  destruct (is_binary isolate value) eqn:Hb.
  - split; split.
    + discriminate.
    + intros (e & st' & Hthrow). exfalso. exact (Hbwd eq_refl e st' Hthrow).
    + intros H. apply Hsplit in H. discriminate.
    + intros Hthrow. exfalso. exact (Hbwd eq_refl _ _ Hthrow).
  - split; split.
    + intros _. eexists _, _. apply Hfwd. reflexivity.
    + reflexivity.
    + intros _. apply Hfwd. reflexivity.
    + intros _. apply Hsplit. reflexivity.
Qed.

(** ** Numbers and booleans *)

Lemma to_number_unfold (E : Engine) (isolate : Isolate) (value : Value) (st : State) :
  to_number E isolate value st =
  if is_nan (coerced_number E value st)
  then Throws (invalid_argument not_a_number_message) (snd (Nan_To_double E value st))
  else Returns (coerced_number E value st) (snd (Nan_To_double E value st)).
Proof.
  unfold to_number, coerced_number, bind, engine.
  destruct (Nan_To_double E value st) as [coerced st']. cbn [fst snd].
  destruct (is_nan (FromMaybe nan coerced)); reflexivity.
Qed.

(** C3: [to_number] coerces with the engine's ToNumber and throws
    [std::invalid_argument] exactly when the coerced number is NaN; otherwise
    it returns the coerced number.  A source that is the number NaN, a source
    that is not numeric (undefined, a string that is no number) and a source the engine
    cannot coerce at all are not told apart. *)
Theorem to_number_fails_iff_nan (E : Engine) (isolate : Isolate) (value : Value) (st : State) :
  let number := coerced_number E value st in
  let st' := snd (Nan_To_double E value st) in
  (is_nan number = true <-> exists e s, to_number E isolate value st = Throws e s)
  /\ (is_nan number = true <->
      to_number E isolate value st = Throws (invalid_argument not_a_number_message) st')
  /\ (is_nan number = false <-> to_number E isolate value st = Returns number st')
  /\ to_number E isolate (Number nan) st = Throws (invalid_argument not_a_number_message) st
  /\ to_number E isolate Undefined st = to_number E isolate (Number nan) st
  /\ (forall s, is_nan (StringToNumber E s) = true ->
                to_number E isolate (String s) st = to_number E isolate (Number nan) st)
  /\ (forall id, to_number E isolate (Symbol id) st = to_number E isolate (Number nan) st).
Proof.
  cbn zeta. rewrite (to_number_unfold E isolate value st).
  destruct (is_nan (coerced_number E value st)) eqn:Hnan.
  - repeat split; try discriminate; try reflexivity.
    + intros _. eexists _, _. reflexivity.
    + intros s Hs. rewrite !to_number_unfold. unfold coerced_number. cbn. rewrite Hs.
      reflexivity.
  - repeat split; try discriminate; try reflexivity.
    + intros (e & s & H). discriminate H.
    + intros s Hs. rewrite !to_number_unfold. unfold coerced_number. cbn. rewrite Hs.
      reflexivity.
Qed.

Lemma finite_not_nan (d : double) : is_finite d = true -> is_nan d = false.
Proof.
  unfold is_finite. intros H. apply negb_true_iff, orb_false_iff in H. tauto.
Qed.

(** C4: [from_number] makes a number of any double, NaN and the infinities
    included; a finite [d] comes back from [to_number] as [d], equal to itself
    under [==]; NaN makes [to_number] throw [std::invalid_argument]. *)
Theorem number_round_trip (E : Engine) (isolate : Isolate) (st : State) :
  (forall d, from_number isolate d = Number d /\ is_number isolate (from_number isolate d) = true)
  /\ (forall d, is_finite d = true ->
                to_number E isolate (from_number isolate d) st = Returns d st
                /\ (d =? d)%float = true)
  /\ (forall d, is_nan d = false ->
                to_number E isolate (from_number isolate d) st = Returns d st)
  /\ to_number E isolate (from_number isolate infinity) st = Returns infinity st
  /\ to_number E isolate (from_number isolate neg_infinity) st = Returns neg_infinity st
  /\ to_number E isolate (from_number isolate nan) st
     = Throws (invalid_argument not_a_number_message) st.
Proof.
  assert (Hback : forall d, is_nan d = false ->
                            to_number E isolate (from_number isolate d) st = Returns d st).
  { intros d Hd. rewrite to_number_unfold. unfold coerced_number. cbn. rewrite Hd.
    reflexivity. }
  repeat split; try reflexivity.
  - apply Hback, finite_not_nan. assumption.
  - apply finite_not_nan in H. unfold is_nan in H. apply negb_false_iff in H. exact H.
  - exact Hback.
Qed.

(** C9: [to_boolean] returns for every value and every engine: the engine's
    truthiness when it gives one, [false] when it gives none; it neither
    throws nor changes the state. *)
Theorem to_boolean_total (E : Engine) (isolate : Isolate) (value : Value) (st : State) :
  to_boolean E isolate value st = Returns (FromMaybe false (Nan_To_bool E value)) st
  /\ (Nan_To_bool E value = None -> to_boolean E isolate value st = Returns false st)
  /\ (forall b, Nan_To_bool E value = Some b -> to_boolean E isolate value st = Returns b st)
  /\ exists b, to_boolean E isolate value st = Returns b st.
Proof.
  unfold to_boolean, ret. repeat split.
  - intros ->. reflexivity.
  - intros b ->. reflexivity.
  - eexists. reflexivity.
Qed.

(** ** Objects and functions *)

(** C8: [to_array] and [to_date] are [to_object], and [to_constructor] is
    [to_function], on every isolate, value and state; none of them looks at
    the shape: an object of any class comes back from [to_array] and
    [to_date] as it is. *)
Theorem to_array_to_date_to_constructor_same (isolate : Isolate) (value : Value) (st : State) :
  to_array isolate value st = to_object isolate value st
  /\ to_date isolate value st = to_object isolate value st
  /\ to_constructor isolate value st = to_function isolate value st
  /\ (forall id cls, to_array isolate (Object id cls) st = Returns (Some (Object id cls)) st
                     /\ to_date isolate (Object id cls) st = Returns (Some (Object id cls)) st).
Proof.
  repeat split; reflexivity.
Qed.

(** ** Binary data *)

Lemma determinate_length (cs : list Cell) (bs : list byte) :
  determinate cs = Some bs -> length bs = length cs.
Proof.
  revert bs. induction cs as [|[x|] cs IH]; intros bs; cbn [determinate].
  - intros [= <-]. reflexivity.
  - destruct (determinate cs) as [bs'|]; [|discriminate].
    intros [= <-]. cbn [length]. rewrite (IH bs' eq_refl). reflexivity.
  - discriminate.
Qed.

Lemma determinate_inv (cs : list Cell) (bs : list byte) :
  determinate cs = Some bs -> cs = Some <$> bs.
Proof.
  revert bs. induction cs as [|[x|] cs IH]; intros bs; cbn [determinate].
  - intros [= <-]. reflexivity.
  - destruct (determinate cs) as [bs'|]; [|discriminate].
    intros [= <-]. rewrite fmap_cons, (IH bs' eq_refl). reflexivity.
  - discriminate.
Qed.

Lemma view_bytes_length (m : Memory) (p : pointer) (n : nat) (bs : list byte) :
  view_bytes m p n = Some bs -> length bs = n.
Proof.
  destruct n as [|k]; cbn [view_bytes].
  - intros [= <-]. reflexivity.
  - destruct (read_cells m p (S k)) as [cs|] eqn:H; [|discriminate].
    intros Hd. rewrite (determinate_length _ _ Hd). exact (read_cells_length _ _ _ _ H).
Qed.

(** [from_binary] on a view of length zero: no byte is copied. *)
Lemma from_binary_empty (E : Engine) (isolate : Isolate) (p : pointer) (st : State) :
  from_binary E isolate {| BinaryData_data := p; BinaryData_size := 0 |} st
  = if empty_store_is_null E
    then Returns (Object (next_object st) (ArrayBufferObject nullptr 0))
                 (snd (new_object st))
    else Returns (Object (next_object st) (ArrayBufferObject (Ptr (length (memory st)) 0) 0))
                 (set_memory (snd (new_object st)) (memory st ++ [Some []])).
Proof.
  unfold from_binary, bind, ArrayBuffer_New. cbn.
  destruct (empty_store_is_null E); reflexivity.
Qed.

(** [from_binary] on a readable view of positive length: the new buffer's
    backing store is a new block holding the cells of the view. *)
Lemma from_binary_nonempty (E : Engine) (isolate : Isolate) (p : pointer) (k : nat)
      (st : State) (cs : list Cell) :
  read_cells (memory st) p (S k) = Some cs ->
  from_binary E isolate {| BinaryData_data := p; BinaryData_size := S k |} st
  = Returns (Object (next_object st) (ArrayBufferObject (Ptr (length (memory st)) 0) (S k)))
            (set_memory (snd (new_object st)) (memory st ++ [Some cs])).
Proof.
  intros Hread.
  unfold from_binary, bind, ArrayBuffer_New, new_object, alloc.
  cbn [BinaryData_size BinaryData_data Nat.eqb andb negb memory set_memory defined
       GetContents object_class Data ByteLength snd].
  unfold do_memcpy, memcpy. cbn [memory set_memory].
  rewrite (read_cells_alloc _ _ _ _ _ Hread).
  rewrite write_cells_new_block
    by (rewrite length_replicate; exact (read_cells_length _ _ _ _ Hread)).
  reflexivity.
Qed.

(** C10: on a view of length zero [from_binary] copies nothing, so the view's
    pointer is never followed: whatever the pointer (null included, through
    which a [memcpy] of even zero bytes is undefined) the call returns a new
    ArrayBuffer object of length zero. *)
Theorem from_binary_empty_never_reads (E : Engine) (isolate : Isolate) (p : pointer)
        (st : State) :
  let empty_view q := {| BinaryData_data := q; BinaryData_size := 0 |} in
  (exists store st',
      from_binary E isolate (empty_view p) st
      = Returns (Object (next_object st) (ArrayBufferObject store 0)) st'
      /\ next_object st' = S (next_object st)
      /\ is_array_buffer isolate (Object (next_object st) (ArrayBufferObject store 0)) = true)
  /\ from_binary E isolate (empty_view p) st = from_binary E isolate (empty_view nullptr) st
  /\ (forall dst, memcpy (memory st) dst nullptr 0 = None).
Proof.
  cbv beta zeta. rewrite !from_binary_empty. repeat split.
  destruct (empty_store_is_null E); eexists _, _; repeat split; reflexivity.
Qed.

(** The outcomes of [from_binary]: it returns a new ArrayBuffer object of the
    view's size, having added at most one block, or its behaviour is
    undefined. *)
Lemma from_binary_outcome (E : Engine) (isolate : Isolate) (p : pointer) (n : nat)
      (st : State) :
  from_binary E isolate {| BinaryData_data := p; BinaryData_size := n |} st
  = UndefinedBehaviour
  \/ exists store ext,
      from_binary E isolate {| BinaryData_data := p; BinaryData_size := n |} st
      = Returns (Object (next_object st) (ArrayBufferObject store n))
                {| memory := memory st ++ ext; next_object := S (next_object st) |}.
Proof.
  destruct n as [|k].
  - right. rewrite from_binary_empty. destruct (empty_store_is_null E).
    + exists nullptr, []. cbn. rewrite app_nil_r. reflexivity.
    + eexists _, _. reflexivity.
  - unfold from_binary, bind, ArrayBuffer_New, new_object, alloc.
    cbn [BinaryData_size BinaryData_data Nat.eqb andb negb memory set_memory defined
         GetContents object_class Data ByteLength snd].
    unfold do_memcpy. cbn [memory set_memory].
    destruct (memcpy _ _ _ _) as [m'|] eqn:Hcopy; [right|left; reflexivity].
    apply memcpy_into_new_block in Hcopy as (cs & -> & _); [|apply length_replicate].
    eexists _, _. reflexivity.
Qed.

Lemma view_bytes_app (m ext : Memory) (p : pointer) (n : nat) (bs : list byte) :
  view_bytes m p n = Some bs -> view_bytes (m ++ ext) p n = Some bs.
Proof.
  destruct n as [|k]; [tauto|]. unfold view_bytes.
  destruct (read_cells m p (S k)) as [cs|] eqn:H; [|discriminate].
  rewrite (read_cells_app _ ext _ _ _ H). tauto.
Qed.

(** [from_binary] on a view that denotes [v]. *)
Lemma from_binary_readable (E : Engine) (isolate : Isolate) (p : pointer) (st : State)
      (v : list byte) :
  view_bytes (memory st) p (length v) = Some v ->
  exists store ext,
    from_binary E isolate {| BinaryData_data := p; BinaryData_size := length v |} st
    = Returns (Object (next_object st) (ArrayBufferObject store (length v)))
              {| memory := memory st ++ ext; next_object := S (next_object st) |}
    /\ (v = [] \/ store = Ptr (length (memory st)) 0 /\ ext = [Some (Some <$> v)]).
Proof.
  intros Hv. destruct v as [|x v'].
  - destruct (from_binary_outcome E isolate p 0 st) as [Ho|(store & ext & Ho)].
    + rewrite from_binary_empty in Ho. destruct (empty_store_is_null E); discriminate Ho.
    + exists store, ext. split; [exact Ho|left; reflexivity].
  - cbn [length] in *. cbn [view_bytes] in Hv.
    destruct (read_cells (memory st) p (S (length v'))) as [cs|] eqn:Hread; [|discriminate].
    rewrite (from_binary_nonempty E isolate p _ st cs Hread).
    rewrite (determinate_inv _ _ Hv).
    eexists _, _. split; [reflexivity|]. right. split; reflexivity.
Qed.

Lemma view_bytes_new_block (m : Memory) (bs : list byte) :
  view_bytes (m ++ [Some (Some <$> bs)]) (Ptr (length m) 0) (length bs) = Some bs.
Proof.
  destruct bs as [|x bs]; [reflexivity|].
  unfold view_bytes. cbn [length].
  replace (S (length bs)) with (length (Some <$> x :: bs))
    by (rewrite length_fmap; reflexivity).
  rewrite read_cells_new_block. apply determinate_Some.
Qed.

(** What was readable before the lambda ran is readable after it. *)
Lemma read_cells_after_lambda (m : Memory) (cs0 : Block) (p : pointer) (n : nat)
      (cs : list Cell) :
  read_cells m p n = Some cs ->
  read_cells (after_lambda m cs0) p n = Some cs.
Proof.
  intros H. destruct p as [|b o]; [discriminate H|].
  assert (Hb := read_cells_block_bound _ _ _ _ _ H).
  unfold after_lambda. rewrite read_cells_free_other by lia.
  rewrite <- app_assoc. apply read_cells_app. exact H.
Qed.

(** The array of the lambda's result is live and holds the copied cells. *)
Lemma read_cells_lambda_result (m : Memory) (cs : Block) :
  read_cells (after_lambda m cs) (m_data (lambda_result m (length cs))) (length cs)
  = Some cs.
Proof.
  unfold after_lambda, lambda_result. cbn [m_data].
  rewrite read_cells_free_other by lia.
  replace (S (length m)) with (length (m ++ [Some [None]]))
    by (rewrite length_app; cbn [length]; lia).
  apply read_cells_new_block.
Qed.

Lemma view_bytes_lambda_result (m : Memory) (bs : list byte) :
  view_bytes (after_lambda m (Some <$> bs)) (m_data (lambda_result m (length bs)))
             (length bs) = Some bs.
Proof.
  destruct bs as [|x bs]; [reflexivity|].
  unfold view_bytes. cbn [length].
  assert (H := read_cells_lambda_result m (Some <$> x :: bs)).
  rewrite length_fmap in H. cbn [length] in H. rewrite H. apply determinate_Some.
Qed.

(** The lambda on a pointer and length that denote [bs]. *)
Lemma make_owned_binary_data_bytes (p : pointer) (n : nat) (st : State) (bs : list byte) :
  view_bytes (memory st) p n = Some bs ->
  make_owned_binary_data p n st
  = Returns (lambda_result (memory st) (length bs))
            (set_memory st (after_lambda (memory st) (Some <$> bs)))
    /\ n = length bs.
Proof.
  intros Hv. assert (Hlen := view_bytes_length _ _ _ _ Hv). subst n.
  split; [|reflexivity].
  apply make_owned_binary_data_copies.
  - intros ->. destruct bs; [reflexivity|discriminate Hv].
  - destruct bs as [|x bs]; [reflexivity|].
    cbn [length view_bytes copied_cells] in *.
    destruct (read_cells (memory st) p (S (length bs))) as [cs|]; [|discriminate].
    rewrite (determinate_inv _ _ Hv). reflexivity.
Qed.

(** C2: a byte sequence [v] given to [from_binary] as a view comes back from
    [to_binary] on the new buffer: both calls return, the result denotes [v]
    and has its length, and its pointer is not null, also when [v] is
    empty. *)
Theorem binary_round_trip (E : Engine) (isolate : Isolate) (data : BinaryData)
        (st : State) (v : list byte) :
  BinaryData_bytes st data = Some v ->
  exists buffer st1 result st2,
    from_binary E isolate data st = Returns buffer st1
    /\ to_binary isolate buffer st1 = Returns result st2
    /\ OwnedBinaryData_bytes st2 result = Some v
    /\ m_size result = length v
    /\ m_data result <> nullptr.
Proof.
  destruct data as [p n]. unfold BinaryData_bytes. cbn [BinaryData_data BinaryData_size].
  intros Hv. assert (Hlen := view_bytes_length _ _ _ _ Hv). subst n.
  destruct (from_binary_readable E isolate p st v Hv) as (store & ext & Hfrom & Hcase).
  set (st1 := {| memory := memory st ++ ext; next_object := S (next_object st) |}) in *.
  assert (Hstore : view_bytes (memory st1) store (length v) = Some v).
  { destruct Hcase as [->|[-> ->]]; [reflexivity|apply view_bytes_new_block]. }
  destruct (make_owned_binary_data_bytes store (length v) st1 v Hstore) as [Hto _].
  eexists _, _, _, _. split; [exact Hfrom|].
  rewrite to_binary_array_buffer. split; [exact Hto|].
  unfold OwnedBinaryData_bytes. cbn [memory set_memory].
  split; [apply view_bytes_lambda_result|]. split; [reflexivity|discriminate].
Qed.

Lemma view_bytes_write_other (m m' : Memory) (b o b' o' n : nat) (cs : list Cell) :
  b <> b' ->
  write_cells m (Ptr b o) cs = Some m' ->
  view_bytes m' (Ptr b' o') n = view_bytes m (Ptr b' o') n.
Proof.
  intros Hne Hw. destruct n as [|k]; [reflexivity|].
  unfold view_bytes. rewrite (read_cells_write_other _ _ _ _ _ _ _ _ Hne Hw). reflexivity.
Qed.

(** [to_binary] on an ArrayBufferView whose window is readable. *)
Lemma to_binary_view (isolate : Isolate) (id : nat) (store : pointer) (ofs len : nat)
      (nb : bool) (st : State) (bytes : list byte) :
  view_bytes (memory st) (ptr_add store ofs) len = Some bytes ->
  to_binary isolate (Object id (ArrayBufferViewObject store ofs len nb)) st
  = Returns {| m_data := Ptr (length (memory st)) 0; m_size := len |}
            (set_memory st (memory st ++ [Some (Some <$> bytes)])).
Proof.
  intros Hv.
  cbn [to_binary is_array_buffer is_array_buffer_view IsArrayBuffer IsArrayBufferView
       object_class View_ByteLength].
  unfold bind, defined, new_char_array, alloc, CopyContents. cbn [object_class].
  rewrite Nat.min_id.
  destruct len as [|k].
  - cbn in Hv. injection Hv as <-. reflexivity.
  - cbn [Nat.eqb]. unfold bind, do_memcpy, memcpy. cbn [memory set_memory].
    cbn [view_bytes] in Hv.
    destruct (read_cells (memory st) (ptr_add store ofs) (S k)) as [cs|] eqn:Hread;
      [|discriminate].
    rewrite (read_cells_alloc _ _ _ _ _ Hread).
    rewrite write_cells_new_block
      by (rewrite length_replicate; exact (read_cells_length _ _ _ _ Hread)).
    rewrite (determinate_inv _ _ Hv). reflexivity.
Qed.

(** C5: on an ArrayBufferView whose window denotes [bytes], [to_binary]
    returns an array of its own: a new block, as long as the view, holding
    [bytes]; the memory that was there before is as it was, and no later write
    into it, the view's backing store included, changes what the result
    denotes. *)
Theorem to_binary_view_owned_copy (isolate : Isolate) (id : nat) (store : pointer)
        (ofs len : nat) (nb : bool) (st : State) (bytes : list byte) :
  view_bytes (memory st) (ptr_add store ofs) len = Some bytes ->
  exists result st',
    to_binary isolate (Object id (ArrayBufferViewObject store ofs len nb)) st
    = Returns result st'
    /\ m_data result = Ptr (length (memory st)) 0
    /\ m_size result = len
    /\ memory st' = memory st ++ [Some (Some <$> bytes)]
    /\ length bytes = len
    /\ OwnedBinaryData_bytes st' result = Some bytes
    /\ (forall b o cs m'',
           b < length (memory st) ->
           write_cells (memory st') (Ptr b o) cs = Some m'' ->
           OwnedBinaryData_bytes (set_memory st' m'') result = Some bytes).
Proof.
  intros Hv. assert (Hlen := view_bytes_length _ _ _ _ Hv).
  rewrite (to_binary_view isolate id store ofs len nb st bytes Hv).
  eexists _, _. split; [reflexivity|].
  unfold OwnedBinaryData_bytes. cbn [m_data m_size memory set_memory].
  repeat split; try assumption.
  - rewrite <- Hlen. apply view_bytes_new_block.
  - intros b o cs m'' Hb Hw.
    rewrite (view_bytes_write_other _ _ b o _ _ _ cs) by (lia || exact Hw).
    rewrite <- Hlen. apply view_bytes_new_block.
Qed.

Lemma view_extraction_state (isolate : Isolate) (id : nat) (store : pointer)
      (ofs len : nat) (nb : bool) (st : State) (r : OwnedBinaryData) (st' : State) :
  to_binary isolate (Object id (ArrayBufferViewObject store ofs len nb)) st = Returns r st' ->
  exists cs, st' = set_memory st (memory st ++ [Some cs]) /\ length cs = len.
Proof.
  cbn [to_binary is_array_buffer is_array_buffer_view IsArrayBuffer IsArrayBufferView
       object_class View_ByteLength].
  unfold bind, defined, new_char_array, alloc, CopyContents. cbn [object_class].
  rewrite Nat.min_id.
  destruct len as [|k].
  - cbn. intros [= _ <-]. exists []. split; reflexivity.
  - cbn [Nat.eqb]. unfold bind, do_memcpy. cbn [memory set_memory].
    destruct (memcpy _ _ _ _) as [m'|] eqn:Hcopy; [|discriminate].
    apply memcpy_into_new_block in Hcopy as (cs & -> & Hcs);
      [|apply length_replicate].
    cbn. intros [= _ <-]. exists cs. split; [reflexivity|exact Hcs].
Qed.

(** C6: whenever [to_binary] returns, through any of its three paths, the
    pointer of the result is not null and is valid for the result's length:
    it points into a live block of the state returned.  With length zero the
    call does return, also on a null source pointer: in place of null the
    lambda hands the constructor the address of its local, which is live
    then. *)
Theorem to_binary_result_never_null (isolate : Isolate) (value : Value) (st : State)
        (result : OwnedBinaryData) (st' : State) :
  to_binary isolate value st = Returns result st' ->
  m_data result <> nullptr
  /\ (exists cells, read_cells (memory st') (m_data result) (m_size result) = Some cells)
  /\ (forall id, exists r s,
         to_binary isolate (Object id (ArrayBufferObject nullptr 0)) st = Returns r s
         /\ m_size r = 0 /\ m_data r <> nullptr
         /\ read_cells (memory s) (m_data r) 0 = Some [])
  /\ (forall id store ofs nb, exists r s,
         to_binary isolate (Object id (ArrayBufferViewObject store ofs 0 nb)) st = Returns r s
         /\ m_size r = 0 /\ m_data r <> nullptr
         /\ read_cells (memory s) (m_data r) 0 = Some [])
  /\ (forall id, exists r s,
         to_binary isolate (Object id (BufferObject nullptr 0)) st = Returns r s
         /\ m_size r = 0 /\ m_data r <> nullptr
         /\ read_cells (memory s) (m_data r) 0 = Some [])
  /\ (exists placeholder st_in,
         enter_local_char st = Returns placeholder st_in
         /\ placeholder <> nullptr
         /\ read_cells (memory st_in) placeholder 1 = Some [None]
         /\ make_owned_binary_data nullptr 0 st
            = (do r <- OwnedBinaryData_of_pointer placeholder 0;
               do _ <- leave_local_char placeholder;
               ret r) st_in).
Proof.
  intros Hret.
  assert (Hnull : make_owned_binary_data nullptr 0 st
                  = Returns (lambda_result (memory st) 0)
                            (set_memory st (after_lambda (memory st) [])))
    by (apply make_owned_binary_data_copies; reflexivity).
  assert (Hlive : forall m : Memory,
             read_cells (after_lambda m []) (m_data (lambda_result m 0)) 0 = Some [])
    by (intros m; exact (read_cells_lambda_result m [])).
  split; [|split; [|split; [|split; [|split]]]].
  - destruct value as [| | | | | |id cls]; try discriminate Hret.
    destruct cls as [| | | | |p n|store ofs len nb|p n]; try discriminate Hret.
    + rewrite to_binary_array_buffer in Hret.
      lambda_cases p n st Hret cs Hcs. injection Hret as <- _. discriminate.
    + destruct (view_extraction_outcome isolate store ofs len nb id st) as [Ho|(s & Ho)];
        cbv zeta in Ho; rewrite Ho in Hret; [discriminate|].
      injection Hret as <- _. discriminate.
    + rewrite to_binary_buffer in Hret.
      lambda_cases p n st Hret cs Hcs. injection Hret as <- _. discriminate.
  - destruct value as [| | | | | |id cls]; try discriminate Hret.
    destruct cls as [| | | | |p n|store ofs len nb|p n]; try discriminate Hret.
    + rewrite to_binary_array_buffer in Hret.
      lambda_cases p n st Hret cs Hcs. injection Hret as <- <-.
      exists cs. cbn [memory set_memory m_size lambda_result]. rewrite <- Hcs.
      apply read_cells_lambda_result.
    + destruct (view_extraction_state _ _ _ _ _ _ _ _ _ Hret) as (cs & -> & Hcs).
      destruct (view_extraction_outcome isolate store ofs len nb id st) as [Ho|(s & Ho)];
        cbv zeta in Ho; rewrite Ho in Hret; [discriminate|].
      injection Hret as <- _. exists cs. cbn [memory set_memory m_data m_size].
      rewrite <- Hcs. apply read_cells_new_block.
    + rewrite to_binary_buffer in Hret.
      lambda_cases p n st Hret cs Hcs. injection Hret as <- <-.
      exists cs. cbn [memory set_memory m_size lambda_result]. rewrite <- Hcs.
      apply read_cells_lambda_result.
  - intros id. rewrite to_binary_array_buffer, Hnull.
    eexists _, _. split; [reflexivity|]. cbn [memory set_memory].
    split; [reflexivity|]. split; [discriminate|apply Hlive].
  - intros id store ofs nb.
    rewrite (to_binary_view isolate id store ofs 0 nb st [] eq_refl).
    eexists _, _. split; [reflexivity|]. cbn [memory set_memory m_data m_size].
    split; [reflexivity|]. split; [discriminate|].
    exact (read_cells_new_block (memory st) []).
  - intros id. rewrite to_binary_buffer, Hnull.
    eexists _, _. split; [reflexivity|]. cbn [memory set_memory].
    split; [reflexivity|]. split; [discriminate|apply Hlive].
  - eexists _, _. split; [reflexivity|]. split; [discriminate|].
    split; [|reflexivity].
    exact (read_cells_new_block (memory st) [None]).
Qed.

(** ** The properties at sample inputs *)

(** The round trip at the empty view with a null pointer and at a view of
    three bytes. *)
Lemma binary_round_trip_witness :
  (exists buffer st1 result st2,
      from_binary sample_engine sample_isolate
                  {| BinaryData_data := nullptr; BinaryData_size := 0 |} sample_state
      = Returns buffer st1
      /\ to_binary sample_isolate buffer st1 = Returns result st2
      /\ OwnedBinaryData_bytes st2 result = Some []
      /\ m_size result = 0
      /\ m_data result <> nullptr)
  /\ (exists buffer st1 result st2,
         from_binary sample_engine sample_isolate
                     {| BinaryData_data := Ptr 0 1; BinaryData_size := 3 |} sample_state
         = Returns buffer st1
         /\ to_binary sample_isolate buffer st1 = Returns result st2
         /\ OwnedBinaryData_bytes st2 result = Some [x01; x02; x03]
         /\ m_size result = 3
         /\ m_data result <> nullptr).
Proof.
  split.
  - apply (binary_round_trip sample_engine sample_isolate
             {| BinaryData_data := nullptr; BinaryData_size := 0 |} sample_state []).
    reflexivity.
  - apply (binary_round_trip sample_engine sample_isolate
             {| BinaryData_data := Ptr 0 1; BinaryData_size := 3 |} sample_state
             [x01; x02; x03]).
    reflexivity.
Defined.

(** The owned copy at the sample view. *)
Lemma to_binary_view_owned_copy_witness :
  exists result st',
    to_binary sample_isolate sample_view sample_state = Returns result st'
    /\ m_data result = Ptr 1 0
    /\ m_size result = 3
    /\ memory st' = memory sample_state ++ [Some [Some x01; Some x02; Some x03]]
    /\ length [x01; x02; x03] = 3
    /\ OwnedBinaryData_bytes st' result = Some [x01; x02; x03]
    /\ (forall b o cs m'',
           b < 1 ->
           write_cells (memory st') (Ptr b o) cs = Some m'' ->
           OwnedBinaryData_bytes (set_memory st' m'') result = Some [x01; x02; x03]).
Proof.
  apply (to_binary_view_owned_copy sample_isolate 0 (Ptr 0 0) 1 3 false sample_state
           [x01; x02; x03]).
  reflexivity.
Defined.

(** The result for an empty node Buffer with a null pointer: an object over
    a live, empty block. *)
Lemma to_binary_result_never_null_witness :
  m_data (lambda_result (memory sample_state) 0) <> nullptr
  /\ exists cells,
      read_cells (after_lambda (memory sample_state) [])
                 (m_data (lambda_result (memory sample_state) 0)) 0 = Some cells.
Proof.
  destruct (to_binary_result_never_null sample_isolate (Object 0 (BufferObject nullptr 0))
              sample_state (lambda_result (memory sample_state) 0)
              (set_memory sample_state (after_lambda (memory sample_state) [])) eq_refl)
    as (Hnonnull & Hvalid & _).
  split; [exact Hnonnull|exact Hvalid].
Defined.

(** The scenario of the strided view, run: the copy is [1, 2, 3] and stays so
    after the backing store is overwritten. *)
Example view_scenario :
  exists result st',
    to_binary sample_isolate sample_view sample_state = Returns result st'
    /\ OwnedBinaryData_bytes st' result = Some [x01; x02; x03]
    /\ exists m'',
        write_cells (memory st') (Ptr 0 0) (replicate 5 (Some xff)) = Some m''
        /\ view_bytes m'' (Ptr 0 1) 3 = Some [xff; xff; xff]
        /\ OwnedBinaryData_bytes (set_memory st' m'') result = Some [x01; x02; x03].
Proof.
  eexists _, _. split; [reflexivity|]. split; [reflexivity|].
  eexists. split; [reflexivity|]. split; reflexivity.
Qed.

(** Two calls of [from_binary] on one view give two objects over two blocks. *)
Example from_binary_twice :
  let view := {| BinaryData_data := Ptr 0 1; BinaryData_size := 3 |} in
  (do first <- from_binary sample_engine sample_isolate view;
   do second <- from_binary sample_engine sample_isolate view;
   ret (first, second)) sample_state
  = Returns (Object 1 (ArrayBufferObject (Ptr 1 0) 3), Object 2 (ArrayBufferObject (Ptr 2 0) 3))
            {| memory := memory sample_state
                         ++ [Some [Some x01; Some x02; Some x03];
                             Some [Some x01; Some x02; Some x03]];
               next_object := 3 |}.
Proof. reflexivity. Qed.

Example to_number_samples :
  to_number sample_engine sample_isolate (Number 1.5%float) sample_state
  = Returns 1.5%float sample_state
  /\ to_number sample_engine sample_isolate (Boolean true) sample_state
     = Returns one sample_state
  /\ to_number sample_engine sample_isolate Undefined sample_state
     = Throws (invalid_argument not_a_number_message) sample_state
  /\ to_number sample_engine sample_isolate (Symbol 0) sample_state
     = Throws (invalid_argument not_a_number_message) sample_state.
Proof. repeat split; reflexivity. Qed.

Example to_binary_samples :
  to_binary sample_isolate (Number one) sample_state
  = Throws (runtime_error not_binary_message) sample_state
  /\ to_binary sample_isolate (Object 0 ArrayObject) sample_state
     = Throws (runtime_error not_binary_message) sample_state
  /\ to_binary sample_isolate (Object 0 (ArrayBufferViewObject (Ptr 0 0) 3 3 false))
               sample_state = UndefinedBehaviour.
Proof. repeat split; reflexivity. Qed.

(** * Further properties of the bridge *)

(** ** Functions and objects *)

(** X1: [to_function] and [to_constructor] return, in the unchanged state, a
    handle that is valid exactly when [is_function] (which is also
    [is_constructor]) holds; a valid handle refers to the value itself. *)
Theorem to_function_valid_iff_function (isolate : Isolate) (value : Value) (st : State) :
  exists handle,
    to_function isolate value st = Returns handle st
    /\ to_constructor isolate value st = Returns handle st
    /\ is_valid handle = is_function isolate value
    /\ is_valid handle = is_constructor isolate value
    /\ (is_valid handle = true -> handle = Some value).
Proof.
  unfold to_constructor, to_function, is_constructor, is_function, ret.
  destruct (IsFunction value); eexists; repeat split; discriminate.
Qed.

(** X2: [to_object] (and so [to_array] and [to_date]) never throws: it returns
    a handle, empty exactly for undefined and null; a valid handle refers to
    an object, and an object is returned as it is, in the unchanged state. *)
Theorem to_object_invalid_iff_nullish (isolate : Isolate) (value : Value) (st : State) :
  exists handle st',
    to_object isolate value st = Returns handle st'
    /\ (is_valid handle = false <->
        is_undefined isolate value = true \/ is_null isolate value = true)
    /\ (forall v, handle = Some v -> is_object isolate v = true)
    /\ (is_object isolate value = true -> handle = Some value /\ st' = st).
Proof.
  destruct value; eexists _, _; (split; [reflexivity|]); cbn;
    repeat split; try discriminate; try tauto; try (intros [?|?]; discriminate);
    try (intros v [= <-]; reflexivity).
Qed.

(** ** Values made by the constructors *)

(** X3: for an engine that gives a boolean its own truth value, a boolean
    comes back from [to_boolean] after [from_boolean], and what
    [from_boolean] makes is a boolean. *)
Theorem boolean_round_trip (E : Engine) (isolate : Isolate) (b : bool) (st : State) :
  BooleanValue E (Boolean b) = Some b ->
  to_boolean E isolate (from_boolean isolate b) st = Returns b st
  /\ is_boolean isolate (from_boolean isolate b) = true.
Proof.
  intros H. unfold to_boolean, from_boolean, Nan_New_bool, Nan_To_bool, ret.
  rewrite H. split; reflexivity.
Qed.

(** X4: [to_number] on what the other constructors make: null gives zero, a
    boolean gives one or zero, and undefined makes it throw; the state is
    untouched. *)
Theorem to_number_of_constructed (E : Engine) (isolate : Isolate) (st : State) :
  to_number E isolate (from_null isolate) st = Returns zero st
  /\ (forall b, to_number E isolate (from_boolean isolate b) st
                = Returns (if b then one else zero) st)
  /\ to_number E isolate (from_undefined isolate) st
     = Throws (invalid_argument not_a_number_message) st.
Proof.
  split; [reflexivity|]. split; [|reflexivity].
  intros [|]; reflexivity.
Qed.

(** X5: a double that [to_number] returns is never NaN: it is equal to itself
    under [==]. *)
Theorem to_number_result_not_nan (E : Engine) (isolate : Isolate) (value : Value)
        (st : State) (d : double) (st' : State) :
  to_number E isolate value st = Returns d st' ->
  is_nan d = false /\ (d =? d)%float = true.
Proof.
  rewrite to_number_unfold.
  destruct (is_nan (coerced_number E value st)) eqn:Hnan; [discriminate|].
  intros [= <- _]. split; [exact Hnan|].
  unfold is_nan in Hnan. apply negb_false_iff in Hnan. exact Hnan.
Qed.

(** X6: [to_binary] refuses whatever [from_boolean], [from_number],
    [from_null] and [from_undefined] make: none of it is binary, and the call
    throws the [std::runtime_error]. *)
Theorem to_binary_rejects_constructed (isolate : Isolate) (st : State) (value : Value) :
  (exists b, value = from_boolean isolate b)
  \/ (exists d, value = from_number isolate d)
  \/ value = from_null isolate
  \/ value = from_undefined isolate ->
  is_binary isolate value = false
  /\ to_binary isolate value st = Throws (runtime_error not_binary_message) st.
Proof.
  intros [[b ->]|[[d ->]|[->| ->]]]; split; reflexivity.
Qed.

(** ** What the binary conversions leave alone *)

Lemma after_lambda_lookup (m : Memory) (cs : Block) (b : nat) :
  b < length m -> after_lambda m cs !! b = m !! b.
Proof.
  intros Hb. unfold after_lambda, free.
  rewrite list_lookup_insert_ne by lia. rewrite <- app_assoc.
  apply lookup_app_l. exact Hb.
Qed.

(** A view is read through the block it points into. *)
Lemma view_bytes_same_blocks (m m' : Memory) (p : pointer) (n : nat) (bs : list byte) :
  (forall b, b < length m -> m' !! b = m !! b) ->
  view_bytes m p n = Some bs -> view_bytes m' p n = Some bs.
Proof.
  intros Hsame. destruct n as [|k]; [tauto|]. unfold view_bytes.
  destruct (read_cells m p (S k)) as [cs|] eqn:Hread; [|discriminate].
  destruct p as [|b o]; [discriminate Hread|].
  assert (Hb := read_cells_block_bound _ _ _ _ _ Hread).
  unfold read_cells in *. rewrite (Hsame b Hb), Hread. tauto.
Qed.

(** X8: a call of [to_binary] that returns has made no engine object and has
    left every block of memory that was there as it was: whatever a pointer
    and length denoted before the call, the memory of the source buffer
    included, they denote after it. *)
Theorem to_binary_frame (isolate : Isolate) (value : Value) (st : State)
        (result : OwnedBinaryData) (st' : State) :
  to_binary isolate value st = Returns result st' ->
  next_object st' = next_object st
  /\ (forall b, b < length (memory st) -> memory st' !! b = memory st !! b)
  /\ (forall p n bs, view_bytes (memory st) p n = Some bs ->
                     view_bytes (memory st') p n = Some bs).
Proof.
  intros Hret.
  assert (Hframe : next_object st' = next_object st
                   /\ forall b, b < length (memory st) -> memory st' !! b = memory st !! b).
  { destruct value as [| | | | | |id cls]; try discriminate Hret.
    destruct cls as [| | | | |p n|store ofs len nb|p n]; try discriminate Hret.
    - rewrite to_binary_array_buffer in Hret.
      lambda_cases p n st Hret cs Hcs. injection Hret as _ <-.
      split; [reflexivity|]. intros b Hb. apply after_lambda_lookup. exact Hb.
    - apply view_extraction_state in Hret as (cs & -> & _).
      split; [reflexivity|]. intros b Hb. apply lookup_app_l. exact Hb.
    - rewrite to_binary_buffer in Hret.
      lambda_cases p n st Hret cs Hcs. injection Hret as _ <-.
      split; [reflexivity|]. intros b Hb. apply after_lambda_lookup. exact Hb. }
  destruct Hframe as [Hobj Hsame]. split; [exact Hobj|]. split; [exact Hsame|].
  intros p n bs. apply view_bytes_same_blocks. exact Hsame.
Qed.

(** X9: what [from_binary] returns is an ArrayBuffer, so [is_binary] and not a
    view; it is a new object (the engine's next one), and the call has left
    every block that was there as it was. *)
Theorem from_binary_result_is_array_buffer (E : Engine) (isolate : Isolate)
        (data : BinaryData) (st : State) (buffer : Value) (st' : State) :
  from_binary E isolate data st = Returns buffer st' ->
  is_array_buffer isolate buffer = true
  /\ is_binary isolate buffer = true
  /\ is_array_buffer_view isolate buffer = false
  /\ (exists store, buffer = Object (next_object st)
                                    (ArrayBufferObject store (BinaryData_size data)))
  /\ next_object st' = S (next_object st)
  /\ (forall b, b < length (memory st) -> memory st' !! b = memory st !! b).
Proof.
  destruct data as [p n]. intros Hret.
  destruct (from_binary_outcome E isolate p n st) as [Ho|(store & ext & Ho)];
    rewrite Ho in Hret; [discriminate|].
  injection Hret as <- <-. cbn [memory next_object BinaryData_size].
  repeat split; try reflexivity.
  - exists store. reflexivity.
  - intros b Hb. apply lookup_app_l. exact Hb.
Qed.

(** X10: [from_binary] neither throws nor aborts, and it has no check of its
    own on the view's pointer: with a null pointer and a size that is not
    zero its behaviour is undefined. *)
Theorem from_binary_null_nonempty_undefined (E : Engine) (isolate : Isolate) (st : State) :
  (forall data, (forall e s, from_binary E isolate data st <> Throws e s)
                /\ from_binary E isolate data st <> Aborts)
  /\ (forall k, from_binary E isolate
                            {| BinaryData_data := nullptr; BinaryData_size := S k |} st
                = UndefinedBehaviour).
Proof.
  split.
  - intros [p n].
    destruct (from_binary_outcome E isolate p n st) as [Ho|(store & ext & Ho)];
      rewrite Ho; split; try intros e s; discriminate.
  - intros k. reflexivity.
Qed.

(** ** Copies and their independence *)

(** X11: [from_binary] copies: for a view that denotes [v] the new
    ArrayBuffer denotes [v] in storage of its own, the view still denotes [v]
    afterwards, and no later write into memory that was there before the
    call, the view's included, changes what the ArrayBuffer holds. *)
Theorem from_binary_copies (E : Engine) (isolate : Isolate) (data : BinaryData)
        (st : State) (v : list byte) :
  BinaryData_bytes st data = Some v ->
  exists id store st',
    from_binary E isolate data st
    = Returns (Object id (ArrayBufferObject store (length v))) st'
    /\ view_bytes (memory st') store (length v) = Some v
    /\ BinaryData_bytes st' data = Some v
    /\ (forall b o cs m'',
           b < length (memory st) ->
           write_cells (memory st') (Ptr b o) cs = Some m'' ->
           view_bytes m'' store (length v) = Some v).
Proof.
  destruct data as [p n]. unfold BinaryData_bytes. cbn [BinaryData_data BinaryData_size].
  intros Hv. assert (Hlen := view_bytes_length _ _ _ _ Hv). subst n.
  destruct (from_binary_readable E isolate p st v Hv) as (store & ext & -> & Hcase).
  eexists _, _, _. split; [reflexivity|]. cbn [memory].
  split; [|split; [apply view_bytes_app; exact Hv|]].
  - destruct Hcase as [->|[-> ->]]; [reflexivity|apply view_bytes_new_block].
  - intros b o cs m'' Hb Hw.
    destruct Hcase as [->|[-> ->]]; [reflexivity|].
    rewrite (view_bytes_write_other _ _ b o _ _ _ cs) by (lia || exact Hw).
    apply view_bytes_new_block.
Qed.

(** X12: two calls of [from_binary] on one view give two different objects,
    each denoting the view's bytes, and a write into the storage of either
    does not change what the other holds. *)
Theorem from_binary_calls_independent (E : Engine) (isolate : Isolate)
        (data : BinaryData) (st : State) (v : list byte) :
  BinaryData_bytes st data = Some v ->
  exists id1 store1 st1 id2 store2 st2,
    from_binary E isolate data st
    = Returns (Object id1 (ArrayBufferObject store1 (length v))) st1
    /\ from_binary E isolate data st1
       = Returns (Object id2 (ArrayBufferObject store2 (length v))) st2
    /\ id1 <> id2
    /\ view_bytes (memory st2) store1 (length v) = Some v
    /\ view_bytes (memory st2) store2 (length v) = Some v
    /\ (forall o cs m'',
           write_cells (memory st2) (ptr_add store1 o) cs = Some m'' ->
           view_bytes m'' store2 (length v) = Some v)
    /\ (forall o cs m'',
           write_cells (memory st2) (ptr_add store2 o) cs = Some m'' ->
           view_bytes m'' store1 (length v) = Some v).
Proof.
  destruct data as [p n]. unfold BinaryData_bytes. cbn [BinaryData_data BinaryData_size].
  intros Hv. assert (Hlen := view_bytes_length _ _ _ _ Hv). subst n.
  destruct (from_binary_readable E isolate p st v Hv) as (s1 & ext1 & H1 & Hcase1).
  set (st1 := {| memory := memory st ++ ext1; next_object := S (next_object st) |}) in *.
  assert (Hv1 : view_bytes (memory st1) p (length v) = Some v)
    by (apply view_bytes_app; exact Hv).
  destruct (from_binary_readable E isolate p st1 v Hv1) as (s2 & ext2 & H2 & Hcase2).
  eexists _, _, _, _, _, _. split; [exact H1|]. split; [exact H2|].
  clear H1 H2. cbn [memory next_object st1]. split; [lia|].
  destruct Hcase1 as [->|[-> ->]]; [repeat split; reflexivity|].
  destruct Hcase2 as [Hnil|[-> ->]]; [subst v; repeat split; reflexivity|].
  cbn [memory st1 ptr_add]. rewrite length_app. cbn [length].
  split; [apply view_bytes_app, view_bytes_new_block|].
  assert (Hsecond : view_bytes ((memory st ++ [Some (Some <$> v)]) ++ [Some (Some <$> v)])
                               (Ptr (length (memory st) + 1) 0) (length v) = Some v).
  { replace (length (memory st) + 1) with (length (memory st ++ [Some (Some <$> v)]))
      by (rewrite length_app; reflexivity).
    apply view_bytes_new_block. }
  split; [exact Hsecond|]. split.
  - intros o cs m'' Hw.
    rewrite (view_bytes_write_other _ _ (length (memory st)) (0 + o) _ _ _ cs)
      by (lia || exact Hw).
    exact Hsecond.
  - intros o cs m'' Hw.
    rewrite (view_bytes_write_other _ _ (length (memory st) + 1) (0 + o) _ _ _ cs)
      by (lia || exact Hw).
    apply view_bytes_app, view_bytes_new_block.
Qed.

(** X13: on an ArrayBuffer or a node Buffer (one that is no view) whose memory
    denotes [bytes], [to_binary] returns a result of the buffer's length that
    denotes [bytes]. *)
Theorem to_binary_buffer_denotes_contents (isolate : Isolate) (id : nat) (p : pointer)
        (n : nat) (st : State) (bytes : list byte) :
  view_bytes (memory st) p n = Some bytes ->
  exists result st',
    to_binary isolate (Object id (ArrayBufferObject p n)) st = Returns result st'
    /\ to_binary isolate (Object id (BufferObject p n)) st = Returns result st'
    /\ m_size result = n
    /\ OwnedBinaryData_bytes st' result = Some bytes.
Proof.
  intros Hv. rewrite to_binary_array_buffer, to_binary_buffer.
  destruct (make_owned_binary_data_bytes p n st bytes Hv) as [Hto Hn].
  eexists _, _. split; [exact Hto|]. split; [exact Hto|].
  split; [symmetry; exact Hn|].
  unfold OwnedBinaryData_bytes. cbn [memory set_memory].
  apply view_bytes_lambda_result.
Qed.

(** X14: the view check comes before the Buffer check, so a node Buffer that
    is an ArrayBufferView is copied like any view: the result is a block that
    was not there before the call, as long as the result. *)
Theorem node_buffer_view_is_copied (isolate : Isolate) (value : Value) (st : State)
        (result : OwnedBinaryData) (st' : State) :
  Buffer_HasInstance value = true ->
  is_array_buffer_view isolate value = true ->
  to_binary isolate value st = Returns result st' ->
  m_data result = Ptr (length (memory st)) 0
  /\ memory st !! length (memory st) = None
  /\ exists cs, memory st' = memory st ++ [Some cs] /\ length cs = m_size result.
Proof.
  intros _ Hview Hret.
  destruct value as [| | | | | |id cls]; try discriminate Hview.
  destruct cls as [| | | | |p n|store ofs len nb|p n]; try discriminate Hview.
  destruct (view_extraction_state _ _ _ _ _ _ _ _ _ Hret) as (cs & -> & Hcs).
  destruct (view_extraction_outcome isolate store ofs len nb id st) as [Ho|(s & Ho)];
    cbv zeta in Ho; rewrite Ho in Hret; [discriminate|].
  injection Hret as <- _. cbn [m_data m_size memory set_memory].
  split; [reflexivity|]. split; [apply lookup_ge_None; lia|].
  exists cs. split; [reflexivity|exact Hcs].
Qed.

(** ** The further properties at sample inputs *)

(** X3 at the sample engine and [true]. *)
Lemma boolean_round_trip_witness :
  to_boolean sample_engine sample_isolate (from_boolean sample_isolate true) sample_state
  = Returns true sample_state
  /\ is_boolean sample_isolate (from_boolean sample_isolate true) = true.
Proof.
  apply (boolean_round_trip sample_engine sample_isolate true sample_state).
  reflexivity.
Defined.

(** X5 at the number 1.5. *)
Lemma to_number_result_not_nan_witness :
  is_nan 1.5%float = false /\ (1.5 =? 1.5)%float = true.
Proof.
  apply (to_number_result_not_nan sample_engine sample_isolate (Number 1.5%float)
           sample_state 1.5%float sample_state).
  reflexivity.
Defined.

(** X6 at the number one. *)
Lemma to_binary_rejects_constructed_witness :
  is_binary sample_isolate (Number one) = false
  /\ to_binary sample_isolate (Number one) sample_state
     = Throws (runtime_error not_binary_message) sample_state.
Proof.
  apply (to_binary_rejects_constructed sample_isolate sample_state (Number one)).
  right. left. exists one. reflexivity.
Defined.

(** X8 at the sample view. *)
Lemma to_binary_frame_witness :
  next_object sample_state_with_copy = next_object sample_state
  /\ (forall b, b < length (memory sample_state) ->
                memory sample_state_with_copy !! b = memory sample_state !! b)
  /\ (forall p n bs, view_bytes (memory sample_state) p n = Some bs ->
                     view_bytes (memory sample_state_with_copy) p n = Some bs).
Proof.
  apply (to_binary_frame sample_isolate sample_view sample_state
           {| m_data := Ptr 1 0; m_size := 3 |} sample_state_with_copy).
  reflexivity.
Defined.

(** X9 at a view of three bytes. *)
Lemma from_binary_result_is_array_buffer_witness :
  is_array_buffer sample_isolate (Object 1 (ArrayBufferObject (Ptr 1 0) 3)) = true
  /\ is_binary sample_isolate (Object 1 (ArrayBufferObject (Ptr 1 0) 3)) = true
  /\ is_array_buffer_view sample_isolate (Object 1 (ArrayBufferObject (Ptr 1 0) 3)) = false
  /\ (exists store, Object 1 (ArrayBufferObject (Ptr 1 0) 3)
                    = Object (next_object sample_state)
                             (ArrayBufferObject store (BinaryData_size sample_data)))
  /\ next_object sample_state_after_from_binary = S (next_object sample_state)
  /\ (forall b, b < length (memory sample_state) ->
                memory sample_state_after_from_binary !! b = memory sample_state !! b).
Proof.
  apply (from_binary_result_is_array_buffer sample_engine sample_isolate
           sample_data sample_state (Object 1 (ArrayBufferObject (Ptr 1 0) 3))
           sample_state_after_from_binary).
  reflexivity.
Defined.

(** X11 at a view of three bytes. *)
Lemma from_binary_copies_witness :
  exists id store st',
    from_binary sample_engine sample_isolate sample_data sample_state
    = Returns (Object id (ArrayBufferObject store 3)) st'
    /\ view_bytes (memory st') store 3 = Some [x01; x02; x03]
    /\ BinaryData_bytes st' sample_data = Some [x01; x02; x03]
    /\ (forall b o cs m'',
           b < length (memory sample_state) ->
           write_cells (memory st') (Ptr b o) cs = Some m'' ->
           view_bytes m'' store 3 = Some [x01; x02; x03]).
Proof.
  apply (from_binary_copies sample_engine sample_isolate sample_data sample_state
           [x01; x02; x03]).
  reflexivity.
Defined.

(** X12 at a view of three bytes. *)
Lemma from_binary_calls_independent_witness :
  exists id1 store1 st1 id2 store2 st2,
    from_binary sample_engine sample_isolate sample_data sample_state
    = Returns (Object id1 (ArrayBufferObject store1 3)) st1
    /\ from_binary sample_engine sample_isolate sample_data st1
       = Returns (Object id2 (ArrayBufferObject store2 3)) st2
    /\ id1 <> id2
    /\ view_bytes (memory st2) store1 3 = Some [x01; x02; x03]
    /\ view_bytes (memory st2) store2 3 = Some [x01; x02; x03]
    /\ (forall o cs m'',
           write_cells (memory st2) (ptr_add store1 o) cs = Some m'' ->
           view_bytes m'' store2 3 = Some [x01; x02; x03])
    /\ (forall o cs m'',
           write_cells (memory st2) (ptr_add store2 o) cs = Some m'' ->
           view_bytes m'' store1 3 = Some [x01; x02; x03]).
Proof.
  apply (from_binary_calls_independent sample_engine sample_isolate sample_data
           sample_state [x01; x02; x03]).
  reflexivity.
Defined.

(** X13 at the whole sample block as an ArrayBuffer. *)
Lemma to_binary_buffer_denotes_contents_witness :
  exists result st',
    to_binary sample_isolate (Object 0 (ArrayBufferObject (Ptr 0 0) 5)) sample_state
    = Returns result st'
    /\ to_binary sample_isolate (Object 0 (BufferObject (Ptr 0 0) 5)) sample_state
       = Returns result st'
    /\ m_size result = 5
    /\ OwnedBinaryData_bytes st' result = Some [x09; x01; x02; x03; x09].
Proof.
  apply (to_binary_buffer_denotes_contents sample_isolate 0 (Ptr 0 0) 5 sample_state
           [x09; x01; x02; x03; x09]).
  reflexivity.
Defined.

(** X14 at the sample view, made by node as a Buffer. *)
Lemma node_buffer_view_is_copied_witness :
  m_data {| m_data := Ptr 1 0; m_size := 3 |} = Ptr (length (memory sample_state)) 0
  /\ memory sample_state !! length (memory sample_state) = None
  /\ exists cs, memory sample_state_with_copy = memory sample_state ++ [Some cs]
                /\ length cs = m_size {| m_data := Ptr 1 0; m_size := 3 |}.
Proof.
  apply (node_buffer_view_is_copied sample_isolate
           (Object 0 (ArrayBufferViewObject (Ptr 0 0) 1 3 true)) sample_state
           {| m_data := Ptr 1 0; m_size := 3 |} sample_state_with_copy).
  - reflexivity.
  - reflexivity.
  - reflexivity.
Defined.
